(** * Chrome Dev Summit site middleware ([src/host.js])

    A shallow embedding of the section registry, the mount-path resolver
    [mountUrl], the AMP stylesheet cache and the request dispatcher (the
    callback handed to the flat router), followed by the properties the
    specification states about them. *)

From Stdlib Require Import ZArith String Ascii List Lia.
From stdpp Require Import base option gmap strings.

Set Warnings "-register-all".
Local Open Scope string_scope.
Local Open Scope Z_scope.

(** ** JavaScript strings

    The [String.prototype] operations that [host.js] calls, over sequences
    of code units.  Indices are [Z] where JavaScript can return or accept
    a negative number. *)

Module JsString.

(** [s.startsWith(p)] *)
Definition startsWith (s p : string) : bool := String.prefix p s.

(** [s.endsWith(p)]: the comparison starts at [s.length - p.length] and
    fails when that is negative. *)
Definition endsWith (s p : string) : bool :=
  let start := Z.of_nat (String.length s) - Z.of_nat (String.length p) in
  if start <? 0 then false
  else String.eqb (String.substring (Z.to_nat start) (String.length p) s) p.

(** [s.substr(start, len)] for a start inside the string; a negative
    length gives the empty string. *)
Definition substr (s : string) (start : nat) (len : Z) : string :=
  String.substring start (Z.to_nat len) s.

(** [s.slice(from, to)]: negative positions count from the end, both are
    clamped to the string. *)
Definition slice (s : string) (from to : Z) : string :=
  let len := Z.of_nat (String.length s) in
  let clamp k := if k <? 0 then Z.max (len + k) 0 else Z.min k len in
  let a := clamp from in
  let b := clamp to in
  String.substring (Z.to_nat a) (Z.to_nat (Z.max (b - a) 0)) s.

(** Does [t] sit in [s] at code-unit position [i]? *)
Fixpoint matches_at (s t : string) (i : nat) {struct i} : bool :=
  match i, s with
  | O, _ => String.prefix t s
  | S i', String _ s' => matches_at s' t i'
  | S _, EmptyString => false
  end.

(** The downward scan of [lastIndexOf], from position [i]. *)
Fixpoint lastIndexOf_from (s t : string) (i : nat) : Z :=
  if matches_at s t i then Z.of_nat i
  else match i with
       | O => -1
       | S i' => lastIndexOf_from s t i'
       end.

(** [s.lastIndexOf(t)]: the scan starts at [s.length]; [-1] when [t] is
    not found. *)
Definition lastIndexOf (s t : string) : Z :=
  lastIndexOf_from s t (String.length s).

(** [t] occurs in [s] as a substring starting at position [i]. *)
Definition occurs_at (t s : string) (i : nat) : Prop :=
  exists pre post, s = pre +:+ t +:+ post /\ String.length pre = i.

End JsString.

(** ** JavaScript values

    The values that reach the dispatcher: parsed JSON (the schedule), the
    [Buffer] read at startup, and what a lookup on a plain object can
    inherit from [Object.prototype].  The code only tests a number for
    truthiness, so numbers are kept as integers. *)

Inductive JsVal : Type :=
| JUndefined
| JNull
| JBool (b : bool)
| JNum (n : Z)
| JStr (s : string)
| JArr (items : list JsVal)
| JObj (props : gmap string JsVal)
| JBuffer (bytes : string)
| JFun (name : string)
| JObjectPrototype.

(** [ToBoolean]: what [if (v)], [!v], [v || w] and [filter(Boolean)] test. *)
Definition truthy (v : JsVal) : bool :=
  match v with
  | JUndefined | JNull => false
  | JBool b => b
  | JNum n => negb (n =? 0)
  | JStr s => negb (String.eqb s "")
  | JArr _ | JObj _ | JBuffer _ | JFun _ | JObjectPrototype => true
  end.

(** [a || b] *)
Definition js_or (a b : JsVal) : JsVal := if truthy a then a else b.

(** [v === undefined] *)
Definition is_undefined (v : JsVal) : bool :=
  match v with JUndefined => true | _ => false end.

(** [v === s] for a string [s] *)
Definition strict_eq_string (v : JsVal) (s : string) : bool :=
  match v with JStr t => String.eqb t s | _ => false end.

(** The properties every plain object inherits from [Object.prototype]:
    its methods (functions named after their key), [constructor] (the
    function [Object]) and the [__proto__] accessor, which on a plain
    object answers [Object.prototype] itself. *)
Definition Object_prototype_methods : list string :=
  [ "hasOwnProperty"; "isPrototypeOf"; "propertyIsEnumerable";
    "toLocaleString"; "toString"; "valueOf";
    "__defineGetter__"; "__defineSetter__";
    "__lookupGetter__"; "__lookupSetter__" ].

Definition inherited (k : string) : JsVal :=
  if String.eqb k "constructor" then JFun "Object"
  else if String.eqb k "__proto__" then JObjectPrototype
  else if existsb (String.eqb k) Object_prototype_methods then JFun k
  else JUndefined.

(** [o[k]] on a plain object [o] with own properties [props]: the own
    property when there is one, what the prototype chain gives otherwise. *)
Definition obj_get (props : gmap string JsVal) (k : string) : JsVal :=
  match props !! k with
  | Some v => v
  | None => inherited k
  end.

(** Exceptions, and the completion of a computation that may throw. *)
Inductive JsError : Type :=
| TypeError          (* property read on [null] or [undefined] *)
| LessError          (* [less.render] rejected *)
| FsError.           (* [fs.readdirSync] threw *)

Inductive Completion (A : Type) : Type :=
| Normal (a : A)
| Throw (e : JsError).
Arguments Normal {A} a.
Arguments Throw {A} e.

(** The three members the dispatcher reads from a session record. *)
Inductive Member : Type := name | time_label | description.

Definition member_key (m : Member) : string :=
  match m with
  | name => "name"
  | time_label => "time_label"
  | description => "description"
  end.

(** [data.m]: throws on [null] and [undefined]; an own property or an
    inherited one on an object; a function has a [name]; no other value
    has any of the three members. *)
Definition get_member (data : JsVal) (m : Member) : Completion JsVal :=
  match data with
  | JUndefined | JNull => Throw TypeError
  | JObj props => Normal (obj_get props (member_key m))
  | JFun f => Normal (match m with name => JStr f | _ => JUndefined end)
  | _ => Normal JUndefined
  end.

(** [Array.prototype.indexOf] with a string as the searched value. *)
Fixpoint indexOf_from (l : list JsVal) (x : string) (i : Z) : Z :=
  match l with
  | [] => -1
  | v :: l' => if strict_eq_string v x then i else indexOf_from l' x (i + 1)
  end.

Definition indexOf (l : list JsVal) (x : string) : Z := indexOf_from l x 0.

(** ** Section registry (lines 93-98) *)

(** The callback of [map]: the entry without its extension, or
    [undefined] (the callback returns nothing). *)
Definition section_of_entry (section : string) : JsVal :=
  if JsString.endsWith section ".html"
     && negb (bool_decide (String.get 0 section = Some "_"%char))
  then JStr (JsString.substr section 0 (Z.of_nat (String.length section) - 5))
  else JUndefined.

(** [entries.map(...).filter(Boolean)] *)
Definition listSections (entries : list string) : list JsVal :=
  List.filter truthy (List.map section_of_entry entries).

(** ** Module state *)

(** [readProdAmpCss] (lines 53-61); [file] is what [fs.readFileSync]
    returns, [None] when it throws. *)
Definition readProdAmpCss (file : option string) : JsVal :=
  match file with
  | Some bytes => JBuffer bytes
  | None => JUndefined
  end.

(** What the module finds when it is loaded. *)
Record World : Type := {
  NODE_ENV_production : bool;           (* process.env.NODE_ENV === 'production' *)
  res_amp_css : option string;          (* res/amp.css, [None]: unreadable *)
  sections_dir : option (list string);  (* readdirSync(sections), [None]: throws *)
  schedule_json_sessions : gmap string JsVal;  (* require('./schedule.json').sessions *)
  calendar_days : JsVal;                (* calendar.days(schedule) *)
  policy : bool -> string;              (* deps/policy.js *)
  less : nat -> option string           (* result.css of the n-th less.render call,
                                           [None]: the call rejects *)
}.

(** The module-level constants of [host.js]. *)
Record Host : Type := {
  isProd : bool;
  sessions : gmap string JsVal;
  days : JsVal;
  policyHeader : string;
  prodAmpCss : JsVal;
  sourcePrefix : string;
  sections : list JsVal;
  less_render : nat -> option string
}.

(** The only mutable variable, [fallbackProdAmpCss], with a count of the
    calls of [less.render] made so far. *)
Record State : Type := {
  fallbackProdAmpCss : JsVal;
  less_calls : nat
}.

Definition initial_state : State :=
  {| fallbackProdAmpCss := JUndefined; less_calls := 0 |}.

(** Loading the module: everything outside the middleware callbacks. *)
Definition load (w : World) : Completion Host :=
  let isProd := NODE_ENV_production w in
  let prodAmpCss := if isProd then readProdAmpCss (res_amp_css w) else JUndefined in
  let sourcePrefix := if isProd then "res" else "src" in
  match sections_dir w with
  | None => Throw FsError
  | Some entries =>
      Normal {| isProd := isProd;
                sessions := schedule_json_sessions w;
                days := calendar_days w;
                policyHeader := policy w isProd;
                prodAmpCss := prodAmpCss;
                sourcePrefix := sourcePrefix;
                sections := listSections entries;
                less_render := less w |}
  end.

(** ** Requests and render contexts *)

(** What the dispatcher reads from Koa's [ctx]. *)
Record Ctx : Type := {
  originalUrl : option string;        (* [None]: undefined *)
  url : string;
  req_headers_host : option string    (* ctx.req.headers.host, [None]: undefined *)
}.

(** A request as the flat router hands it over: the context with the
    section [path] and the remaining segment [rest] ([None]: undefined). *)
Record Request : Type := {
  ctx : Ctx;
  path : string;
  rest : option string
}.

(** String concatenation turns [undefined] into its name. *)
Definition string_of (s : option string) : string :=
  match s with
  | Some s => s
  | None => "undefined"
  end.

(** [if (rest)]: a string that is neither undefined nor empty. *)
Definition if_rest (rest : option string) : option string :=
  match rest with
  | Some r => if String.eqb r "" then None else Some r
  | None => None
  end.

(** The object [scope] handed to the template engine.  The six members
    set on the AMP route are absent ([None]) otherwise. *)
Module Scope.
Record t : Type := {
  year : Z;
  prod : bool;
  base : string;
  layout : string;
  ua : string;
  conversion : Z;
  sourcePrefix : string;
  days : JsVal;
  sitePrefix : option string;
  title : option JsVal;
  time_label : option JsVal;
  description : option JsVal;
  payload : option JsVal;
  styles : option JsVal
}.

(** The assignments of lines 162-168 on [scope]. *)
Definition amp (scope : t) (sitePrefix' : string)
    (title' time_label' description' payload' styles' : JsVal) : t :=
  {| year := year scope;
     prod := prod scope;
     base := base scope;
     layout := "amp";
     ua := ua scope;
     conversion := conversion scope;
     sourcePrefix := sourcePrefix scope;
     days := days scope;
     sitePrefix := Some sitePrefix';
     title := Some title';
     time_label := Some time_label';
     description := Some description';
     payload := Some payload';
     styles := Some styles' |}.

(** The context with its stylesheet member removed. *)
Definition without_styles (scope : t) : t :=
  {| year := year scope;
     prod := prod scope;
     base := base scope;
     layout := layout scope;
     ua := ua scope;
     conversion := conversion scope;
     sourcePrefix := sourcePrefix scope;
     days := days scope;
     sitePrefix := sitePrefix scope;
     title := title scope;
     time_label := time_label scope;
     description := description scope;
     payload := payload scope;
     styles := None |}.
End Scope.

(** How the dispatcher leaves a request: [return next()], or the header
    set by [ctx.set] and the call [ctx.render(path, scope)]. *)
Inductive Outcome : Type :=
| Deferred
| Rendered (headers : list (string * string)) (path : string) (scope : Scope.t).

(** ** Mount path (lines 105-114) *)

Definition mountUrl (ctx : Ctx) : string :=
  match originalUrl ctx with
  | None => ""
  | Some original =>
      let index := JsString.lastIndexOf original (url ctx) in
      if index =? -1 then ""
      else JsString.slice original 0 index
  end.

(** ** Computations over the module state that may throw *)

Definition M (A : Type) : Type := State -> Completion A * State.

Definition ret {A : Type} (a : A) : M A := fun st => (Normal a, st).

Definition bind {A B : Type} (m : M A) (k : A -> M B) : M B :=
  fun st =>
    match m st with
    | (Normal a, st') => k a st'
    | (Throw e, st') => (Throw e, st')
    end.

Definition lift {A : Type} (c : Completion A) : M A := fun st => (c, st).

Notation "'let*' x ':=' m 'in' k" := (bind m (fun x => k))
  (at level 10, x name, m at level 100, k at level 200).

(** ** AMP stylesheet (lines 148-159)

    [await less.render(...)] is the next answer of the preprocessor; a
    rejection leaves the dispatcher as an exception. The [console.debug]
    line has no effect on the state. *)
Definition ampCss (h : Host) : M JsVal :=
  fun st =>
    let css := js_or (prodAmpCss h) (fallbackProdAmpCss st) in
    if is_undefined css then
      let called := S (less_calls st) in
      match less_render h (less_calls st) with
      | None =>
          (Throw LessError,
           {| fallbackProdAmpCss := fallbackProdAmpCss st; less_calls := called |})
      | Some result_css =>
          let css := JStr result_css in
          if isProd h
          then (Normal css, {| fallbackProdAmpCss := css; less_calls := called |})
          else (Normal css,
                {| fallbackProdAmpCss := fallbackProdAmpCss st; less_calls := called |})
      end
    else (Normal css, st).

(** ** The dispatcher (lines 116-174) *)

Definition next : M Outcome := ret Deferred.

(** Lines 172-173. *)
Definition render (h : Host) (path : string) (scope : Scope.t) : M Outcome :=
  ret (Rendered [("Feature-Policy", policyHeader h)] path scope).

Definition dispatch (h : Host) (ctx : Ctx) (path : string) (rest : option string)
    : M Outcome :=
  if indexOf (sections h) path =? -1 then next
  else
    let basepath := mountUrl ctx in
    let hostname := req_headers_host ctx in
    let sitePrefix :=
      (if isProd h then "https://" else "http://")
        +:+ string_of hostname +:+ basepath in
    let scope :=
      {| Scope.year := 2018;
         Scope.prod := isProd h;
         Scope.base := basepath;
         Scope.layout := "devsummit";
         Scope.ua := "UA-41980257-1";
         Scope.conversion := 935743779;
         Scope.sourcePrefix := sourcePrefix h;
         Scope.days := days h;
         Scope.sitePrefix := None;
         Scope.title := None;
         Scope.time_label := None;
         Scope.description := None;
         Scope.payload := None;
         Scope.styles := None |} in
    match if_rest rest with
    | Some rest =>
        if negb (String.eqb path "schedule") then next
        else
          let data := obj_get (sessions h) rest in
          if negb (truthy data) || JsString.startsWith rest "_" then next
          else
            let* css := ampCss h in
            let* data_name := lift (get_member data name) in
            let* data_time_label := lift (get_member data time_label) in
            let* data_description := lift (get_member data description) in
            render h "_amp-session"
              (Scope.amp scope sitePrefix
                 (js_or data_name (JStr ""))
                 (js_or data_time_label (JStr ""))
                 (js_or data_description (JStr ""))
                 data css)
    | None => render h path scope
    end.

Definition handle (h : Host) (r : Request) : M Outcome :=
  dispatch h (ctx r) (path r) (rest r).

(** Requests served one after the other, each to completion. *)
Fixpoint serve (h : Host) (rs : list Request) (st : State)
    : list (Completion Outcome) * State :=
  match rs with
  | [] => ([], st)
  | r :: rs' =>
      let (o, st') := handle h r st in
      let (os, st'') := serve h rs' st' in
      (o :: os, st'')
  end.

(** ** Vocabulary of the specification *)

(** The member [m] that a value has as a property of its own: an entry of
    an object, the [name] of a function. *)
Definition own_member (data : JsVal) (m : Member) : option JsVal :=
  match data, m with
  | JObj props, _ => props !! member_key m
  | JFun f, name => Some (JStr f)
  | _, _ => None
  end.

(** The value when there is one and it is truthy, the empty string
    otherwise. *)
Definition or_empty (o : option JsVal) : JsVal :=
  match o with
  | Some v => if truthy v then v else JStr ""
  | None => JStr ""
  end.

(** The context of a section page. *)
Definition section_scope (h : Host) (ctx : Ctx) : Scope.t :=
  {| Scope.year := 2018;
     Scope.prod := isProd h;
     Scope.base := mountUrl ctx;
     Scope.layout := "devsummit";
     Scope.ua := "UA-41980257-1";
     Scope.conversion := 935743779;
     Scope.sourcePrefix := sourcePrefix h;
     Scope.days := days h;
     Scope.sitePrefix := None;
     Scope.title := None;
     Scope.time_label := None;
     Scope.description := None;
     Scope.payload := None;
     Scope.styles := None |}.

(** The context of the AMP page of the session record [data] with the
    stylesheet [css]. *)
Definition session_scope (h : Host) (ctx : Ctx) (data css : JsVal) : Scope.t :=
  {| Scope.year := 2018;
     Scope.prod := isProd h;
     Scope.base := mountUrl ctx;
     Scope.layout := "amp";
     Scope.ua := "UA-41980257-1";
     Scope.conversion := 935743779;
     Scope.sourcePrefix := sourcePrefix h;
     Scope.days := days h;
     Scope.sitePrefix :=
       Some ((if isProd h then "https://" else "http://")
               +:+ string_of (req_headers_host ctx) +:+ mountUrl ctx);
     Scope.title := Some (or_empty (own_member data name));
     Scope.time_label := Some (or_empty (own_member data time_label));
     Scope.description := Some (or_empty (own_member data description));
     Scope.payload := Some data;
     Scope.styles := Some css |}.

(** The header every rendered response carries. *)
Definition feature_policy (h : Host) : list (string * string) :=
  [("Feature-Policy", policyHeader h)].

(** The record a request for a session page looks up. *)
Definition session_of (h : Host) (r : Request) : JsVal :=
  match if_rest (rest r) with
  | Some id => obj_get (sessions h) id
  | None => JUndefined
  end.

(** The answer to an AMP-rendering request when [ampCss] answers [css]. *)
Definition amp_page (h : Host) (css : JsVal) (r : Request) : Completion Outcome :=
  Normal (Rendered (feature_policy h) "_amp-session"
            (session_scope h (ctx r) (session_of h r) css)).

(** AMP-rendering requests: those that pass every guard of the dispatcher
    and reach its stylesheet code. *)
Definition amp_request (h : Host) (r : Request) : bool :=
  negb (indexOf (sections h) (path r) =? -1)
  && String.eqb (path r) "schedule"
  && match if_rest (rest r) with
     | Some id => truthy (obj_get (sessions h) id)
                  && negb (JsString.startsWith id "_")
     | None => false
     end.

(** A stylesheet can be had in state [st]: one is kept already, or the
    preprocessor answers the next call. *)
Definition stylesheet_available (h : Host) (st : State) : Prop :=
  is_undefined (js_or (prodAmpCss h) (fallbackProdAmpCss st)) = false \/
  is_Some (less_render h (less_calls st)).

(** ** Sample data *)

Module Sample.

Definition koa_ctx : Ctx :=
  {| originalUrl := Some "/app/schedule/keynote";
     url := "/schedule/keynote";
     req_headers_host := Some "localhost:8080" |}.

Definition keynote : JsVal :=
  JObj (<["name" := JStr "Keynote"]> (<["time_label" := JStr "10:00"]> ∅)).

(** A schedule with a session, a hidden one and one whose record is
    [null]. *)
Definition schedule_sessions : gmap string JsVal :=
  <["keynote" := keynote]> (<["_draft" := keynote]> (<["tbd" := JNull]> ∅)).

Definition world (production : bool) (artifact : option string) : World :=
  {| NODE_ENV_production := production;
     res_amp_css := artifact;
     sections_dir := Some ["index.html"; "schedule.html"; "_amp-session.html"];
     schedule_json_sessions := schedule_sessions;
     calendar_days := JArr [];
     policy := fun _ => "geolocation 'none'";
     less := fun _ => Some "body{}" |}.

Definition host (production : bool) (artifact : option string) : Host :=
  {| isProd := production;
     sessions := schedule_sessions;
     days := JArr [];
     policyHeader := "geolocation 'none'";
     prodAmpCss := if production then readProdAmpCss artifact else JUndefined;
     sourcePrefix := if production then "res" else "src";
     sections := [JStr "index"; JStr "schedule"];
     less_render := fun _ => Some "body{}" |}.

(** A host outside production whose stylesheet source is edited after
    the first rendering. *)
Definition live_host : Host :=
  {| isProd := false;
     sessions := schedule_sessions;
     days := JArr [];
     policyHeader := "geolocation 'none'";
     prodAmpCss := JUndefined;
     sourcePrefix := "src";
     sections := [JStr "index"; JStr "schedule"];
     less_render := fun n => Some (match n with O => "body{}" | _ => "body{margin:0}" end) |}.

Definition session_request (id : string) : Request :=
  {| ctx := koa_ctx; path := "schedule"; rest := Some id |}.

End Sample.

(** ** Static mounts and top-level files (lines 44-50 and 65-83) *)

(** The directories handed to [koa-static], each with the prefix it is
    mounted under, in the order of the [app.use] calls. *)
Definition static_mounts (isProd : bool) : list (string * string) :=
  if isProd then [("/res", "res")]
  else [("/static", "static"); ("/src", "src");
        ("/node_modules", "node_modules")].

(** [const sourcePrefix = isProd ? 'res' : 'src'] (line 66). *)
Definition source_prefix (isProd : bool) : string :=
  if isProd then "res" else "src".

(** How one of the two top-level middlewares leaves a request:
    [return send(ctx, file)] or [return next()]. *)
Inductive TopLevel : Type :=
| Send (file : string)
| CallNext.

(** Lines 67-72; [ctx_path] is [ctx.path]. *)
Definition sw_middleware (sourcePrefix ctx_path : string) : TopLevel :=
  if String.eqb ctx_path "/sw.js" then Send (sourcePrefix +:+ "/sw.js")
  else CallNext.

(** Lines 75-83. *)
Definition files_middleware (ctx_path : string) : TopLevel :=
  if String.eqb ctx_path "/schedule.json" then Send "schedule.json"
  else if String.eqb ctx_path "/googlec6dfdf23945d0d0c.html"
       then Send "googlec6dfdf23945d0d0c.html"
  else CallNext.

(** The two middlewares in the order they are registered: [next()] of
    the first runs the second. *)
Definition top_level (sourcePrefix ctx_path : string) : TopLevel :=
  match sw_middleware sourcePrefix ctx_path with
  | Send file => Send file
  | CallNext => files_middleware ctx_path
  end.

(** ** Invariant of the fallback cell *)

(** The cell is empty, or the module runs in production and the cell holds
    what one of the preprocessor calls made so far answered. *)
Definition cell_answered (h : Host) (st : State) : Prop :=
  fallbackProdAmpCss st = JUndefined \/
  (isProd h = true /\
   exists n css, (n < less_calls st)%nat /\ less_render h n = Some css /\
                 fallbackProdAmpCss st = JStr css).

(** ** More sample data *)

Module Scenario.

(** A production host without artifact whose preprocessor rejects the
    first call and answers the later ones. *)
Definition flaky_less_host : Host :=
  {| isProd := true;
     sessions := Sample.schedule_sessions;
     days := JArr [];
     policyHeader := "geolocation 'none'";
     prodAmpCss := JUndefined;
     sourcePrefix := "res";
     sections := [JStr "index"; JStr "schedule"];
     less_render := fun n => match n with O => None | _ => Some "body{}" end |}.

(** A request for a section page. *)
Definition section_request (p : string) : Request :=
  {| ctx := Sample.koa_ctx; path := p; rest := None |}.

(** A request for a session page that carries neither host header nor
    original URL. *)
Definition bare_request : Request :=
  {| ctx := {| originalUrl := None; url := "/schedule/keynote";
               req_headers_host := None |};
     path := "schedule";
     rest := Some "keynote" |}.

(** Session pages, a section page and an unknown id, one after the
    other. *)
Definition visit : list Request :=
  [ section_request "index";
    Sample.session_request "keynote";
    Sample.session_request "missing";
    Sample.session_request "keynote";
    section_request "schedule" ].

End Scenario.

(** * Properties *)

(** ** Facts about the string operations *)

Module JsStringFacts.
Import JsString.

Lemma prefix_append_iff (t s : string) :
  String.prefix t s = true <-> exists post, s = t +:+ post.
Proof.
  revert s; induction t as [|a t IH]; intros s; simpl.
  - split; [intros _; exists s; reflexivity | destruct s; reflexivity].
  - destruct s as [|b s].
    + split; [discriminate | intros [post H]; discriminate].
    + simpl. destruct (ascii_dec a b) as [->|Hab].
      * rewrite IH. split; intros [post H]; exists post.
        -- now rewrite H.
        -- now injection H.
      * split; [discriminate | intros [post H]; injection H; congruence].
Qed.

Lemma matches_at_iff (s t : string) (i : nat) :
  matches_at s t i = true <-> occurs_at t s i.
Proof.
  revert s; induction i as [|i IH]; intros s.
  - simpl. rewrite prefix_append_iff. split.
    + intros [post H]. exists "", post. split; [exact H | reflexivity].
    + intros (pre & post & H & Hlen). destruct pre; [|discriminate].
      exists post. exact H.
  - destruct s as [|a s]; simpl.
    + split; [discriminate |].
      intros (pre & post & H & Hlen). destruct pre; discriminate.
    + rewrite IH. split.
      * intros (pre & post & H & Hlen).
        exists (String a pre), post. subst. split; reflexivity.
      * intros (pre & post & H & Hlen).
        destruct pre as [|b pre]; [discriminate|].
        injection H as -> ->. injection Hlen as <-.
        exists pre, post. split; reflexivity.
Qed.

Lemma append_String (a : ascii) (s r : string) :
  String a s +:+ r = String a (s +:+ r).
Proof. reflexivity. Qed.

Lemma length_append (a b : string) :
  String.length (a +:+ b) = (String.length a + String.length b)%nat.
Proof.
  induction a as [|c a IH]; [reflexivity|].
  rewrite append_String. simpl. now rewrite IH.
Qed.

Lemma occurs_at_bound (t s : string) (i : nat) :
  occurs_at t s i -> (i <= String.length s)%nat.
Proof.
  intros (pre & post & -> & <-). rewrite length_append. lia.
Qed.

Lemma lastIndexOf_from_eq (s t : string) (i : nat) :
  lastIndexOf_from s t i =
  if matches_at s t i then Z.of_nat i
  else match i with
       | O => -1
       | S i' => lastIndexOf_from s t i'
       end.
Proof. destruct i; reflexivity. Qed.

(** What the downward scan returns. *)
Lemma lastIndexOf_from_spec (s t : string) (i : nat) :
  (lastIndexOf_from s t i = -1 /\
   forall j, (j <= i)%nat -> matches_at s t j = false) \/
  (exists k, lastIndexOf_from s t i = Z.of_nat k /\ (k <= i)%nat /\
             matches_at s t k = true /\
             forall j, (k < j <= i)%nat -> matches_at s t j = false).
Proof.
  induction i as [|i IH]; rewrite lastIndexOf_from_eq.
  - destruct (matches_at s t 0) eqn:E.
    + right. exists O.
      split; [reflexivity|]. split; [lia|]. split; [exact E|].
      intros j Hj; lia.
    + left. split; [reflexivity|].
      intros j Hj. now replace j with O by lia.
  - destruct (matches_at s t (S i)) eqn:E.
    + right. exists (S i).
      split; [reflexivity|]. split; [lia|]. split; [exact E|].
      intros j Hj; lia.
    + destruct IH as [[H1 H2] | (k & H1 & H2 & H3 & H4)].
      * left. split; [exact H1|]. intros j Hj.
        destruct (Nat.eq_dec j (S i)) as [->|]; [exact E | apply H2; lia].
      * right. exists k.
        split; [exact H1|]. split; [lia|]. split; [exact H3|].
        intros j Hj.
        destruct (Nat.eq_dec j (S i)) as [->|]; [exact E | apply H4; lia].
Qed.

Lemma substring_0_append (pre rest : string) :
  String.substring 0 (String.length pre) (pre +:+ rest) = pre.
Proof.
  induction pre as [|a pre IH].
  - destruct rest; reflexivity.
  - rewrite append_String. simpl. now rewrite IH.
Qed.

Lemma slice_0_prefix (pre rest : string) :
  slice (pre +:+ rest) 0 (Z.of_nat (String.length pre)) = pre.
Proof.
  unfold slice. rewrite length_append.
  change (0 <? 0) with false. cbv beta iota zeta.
  destruct (Z.ltb_spec (Z.of_nat (String.length pre)) 0) as [H|H]; [lia|].
  rewrite !Z.min_l by lia.
  rewrite Z.sub_0_r, Z.max_l by lia.
  rewrite Nat2Z.id. apply substring_0_append.
Qed.

Lemma append_nil_r (s : string) : s +:+ "" = s.
Proof.
  induction s as [|a s IH]; [reflexivity|].
  rewrite append_String. now rewrite IH.
Qed.

Lemma substring_0_length (s : string) :
  String.substring 0 (String.length s) s = s.
Proof.
  rewrite <- (append_nil_r s) at 2. rewrite substring_0_append.
  reflexivity.
Qed.

Lemma substring_skip_append (pre p : string) (m : nat) :
  String.substring (String.length pre) m (pre +:+ p) = String.substring 0 m p.
Proof.
  induction pre as [|a pre IH]; [reflexivity|].
  rewrite append_String. simpl. exact IH.
Qed.

Lemma substring_split (n : nat) (s : string) :
  (n <= String.length s)%nat ->
  s = String.substring 0 n s +:+ String.substring n (String.length s - n) s.
Proof.
  revert s; induction n as [|n IH]; intros s Hn.
  - rewrite Nat.sub_0_r, substring_0_length. now destruct s.
  - destruct s as [|a s]; simpl in Hn; [lia|].
    simpl. rewrite append_String. f_equal. apply IH. lia.
Qed.

Lemma endsWith_iff (e p : string) :
  endsWith e p = true <-> exists stem, e = stem +:+ p.
Proof.
  unfold endsWith. split.
  - destruct (Z.ltb_spec (Z.of_nat (String.length e) - Z.of_nat (String.length p)) 0)
      as [H|H]; [discriminate|].
    intros E. apply String.eqb_eq in E.
    set (n := Z.to_nat (Z.of_nat (String.length e) - Z.of_nat (String.length p))) in *.
    exists (String.substring 0 n e).
    rewrite <- E at 1.
    replace (String.length p) with (String.length e - n)%nat by lia.
    apply substring_split. lia.
  - intros [stem ->]. rewrite length_append.
    destruct (Z.ltb_spec (Z.of_nat (String.length stem + String.length p)
                          - Z.of_nat (String.length p)) 0) as [H|H]; [lia|].
    replace (Z.to_nat _) with (String.length stem) by lia.
    rewrite substring_skip_append, substring_0_length.
    apply String.eqb_refl.
Qed.

Lemma substr_stem (stem p : string) :
  substr (stem +:+ p) 0
    (Z.of_nat (String.length (stem +:+ p)) - Z.of_nat (String.length p)) = stem.
Proof.
  unfold substr. rewrite length_append.
  replace (Z.to_nat _) with (String.length stem) by lia.
  apply substring_0_append.
Qed.

Lemma get_0_append (stem p : string) :
  stem <> "" -> String.get 0 (stem +:+ p) = String.get 0 stem.
Proof. destruct stem; [congruence | reflexivity]. Qed.

Lemma startsWith_underscore (s : string) :
  startsWith s "_" = true <-> String.get 0 s = Some "_"%char.
Proof.
  unfold startsWith. destruct s as [|a s].
  - split; discriminate.
  - change (String.prefix "_" (String a s))
      with (if ascii_dec "_" a then String.prefix "" s else false).
    change (String.get 0 (String a s)) with (Some a).
    destruct (ascii_dec "_" a) as [<-|Hne].
    + split; [reflexivity | now destruct s].
    + split; [discriminate | congruence].
Qed.

End JsStringFacts.

(** ** Mount path *)

Section MountUrl.
Import JsString JsStringFacts.

Variable current : string.
Variable hd : option string.

Let resolve (original : option string) : string :=
  mountUrl {| originalUrl := original; url := current; req_headers_host := hd |}.

(** Either the current path does not occur in the original one and the
    result is empty, or the result is what stands before an occurrence
    that no other occurrence follows. *)
Lemma mountUrl_cases (original : string) :
  (resolve (Some original) = "" /\ forall i, ~ occurs_at current original i) \/
  (exists pre post,
      original = pre +:+ current +:+ post /\
      resolve (Some original) = pre /\
      forall i, occurs_at current original i -> (i <= String.length pre)%nat).
Proof.
  unfold resolve, mountUrl; simpl. unfold lastIndexOf.
  destruct (lastIndexOf_from_spec original current (String.length original))
    as [[H1 H2] | (k & H1 & H2 & H3 & H4)].
  - left. rewrite H1. split; [reflexivity|].
    intros i Hi. pose proof (occurs_at_bound _ _ _ Hi) as Hb.
    apply matches_at_iff in Hi. rewrite H2 in Hi by lia. discriminate.
  - right. apply matches_at_iff in H3.
    destruct H3 as (pre & post & Ho & Hlen).
    exists pre, post. split; [exact Ho|]. split.
    + rewrite H1. destruct (Z.eqb_spec (Z.of_nat k) (-1)) as [E|_]; [lia|].
      rewrite <- Hlen. subst original. apply slice_0_prefix.
    + intros i Hi. pose proof (occurs_at_bound _ _ _ Hi) as Hb.
      apply matches_at_iff in Hi.
      destruct (le_lt_dec i k) as [Hle|Hlt]; [lia|].
      rewrite H4 in Hi by lia. discriminate.
Qed.

End MountUrl.

(** C3 -- [mountUrl], the mount-path resolver: the result is [""] when the
    original URL is undefined; [""] when the current URL does not occur in
    the original one; otherwise the part of the original URL before the
    last occurrence of the current URL.  So ["/app/schedule/abc"] with
    current ["/schedule/abc"] gives ["/app"], and an original URL equal
    to the current one gives [""]. *)
Theorem mountUrl_last_occurrence :
  forall (current : string) (hd : option string),
    let resolve original :=
      mountUrl {| originalUrl := original; url := current;
                  req_headers_host := hd |} in
    resolve None = "" /\
    (forall original,
        (forall i, ~ JsString.occurs_at current original i) ->
        resolve (Some original) = "") /\
    (forall original,
        (exists i, JsString.occurs_at current original i) ->
        exists post,
          original = resolve (Some original) +:+ current +:+ post /\
          forall i, JsString.occurs_at current original i ->
                    (i <= String.length (resolve (Some original)))%nat) /\
    mountUrl {| originalUrl := Some "/app/schedule/abc";
                url := "/schedule/abc"; req_headers_host := hd |} = "/app" /\
    resolve (Some current) = "".
Proof.
  intros current hd resolve.
  split; [reflexivity|]. split; [|split; [|split; [reflexivity|]]].
  - intros original Hnone.
    destruct (mountUrl_cases current hd original)
      as [[H _] | (pre & post & Ho & _ & _)]; [exact H|].
    exfalso. apply (Hnone (String.length pre)). now exists pre, post.
  - intros original [i Hi].
    destruct (mountUrl_cases current hd original)
      as [[_ H] | (pre & post & Ho & Hr & Hlast)]; [now apply H in Hi|].
    exists post. unfold resolve. rewrite Hr. split; [exact Ho | exact Hlast].
  - destruct (mountUrl_cases current hd current)
      as [[H _] | (pre & post & Ho & Hr & _)]; [exact H|].
    unfold resolve. rewrite Hr.
    apply (f_equal String.length) in Ho.
    rewrite !JsStringFacts.length_append in Ho.
    destruct pre; [reflexivity | simpl in Ho; lia].
Qed.

(** ** Section registry *)

Section Registry.
Import JsString JsStringFacts.

(** An entry is kept exactly when it is a non-empty stem followed by the
    extension and does not begin with an underscore; it is registered
    under its stem. *)
Lemma section_of_entry_kept (e : string) (v : JsVal) :
  section_of_entry e = v /\ truthy v = true <->
  exists stem,
    v = JStr stem /\ stem <> "" /\ e = stem +:+ ".html" /\
    startsWith stem "_" = false.
Proof.
  unfold section_of_entry. split.
  - intros [<- Ht].
    destruct (endsWith e ".html") eqn:Hends; [|discriminate].
    destruct (bool_decide (String.get 0 e = Some "_"%char)) eqn:H0;
      [discriminate|].
    simpl in Ht |- *.
    apply endsWith_iff in Hends. destruct Hends as [stem ->].
    change 5 with (Z.of_nat (String.length ".html")) in *.
    rewrite substr_stem in *.
    assert (Hne : stem <> "").
    { intros ->. discriminate. }
    exists stem. split; [reflexivity|]. split; [exact Hne|].
    split; [reflexivity|].
    apply bool_decide_eq_false in H0.
    rewrite get_0_append in H0 by exact Hne.
    destruct (startsWith stem "_") eqn:Hs; [|reflexivity].
    apply startsWith_underscore in Hs. contradiction.
  - intros (stem & -> & Hne & -> & Hs).
    assert (Hends : endsWith (stem +:+ ".html") ".html" = true).
    { apply endsWith_iff. now exists stem. }
    rewrite Hends.
    assert (H0 : bool_decide (String.get 0 (stem +:+ ".html") = Some "_"%char) = false).
    { apply bool_decide_eq_false. rewrite get_0_append by exact Hne.
      intros H. apply startsWith_underscore in H. congruence. }
    rewrite H0. simpl.
    change 5 with (Z.of_nat (String.length ".html")).
    rewrite substr_stem. split; [reflexivity|].
    destruct stem; [congruence | reflexivity].
Qed.

End Registry.

(** C6 (as the code has it) -- the registry holds exactly the stems of the
    directory entries made of a non-empty stem and the extension [".html"]
    whose first character is not an underscore; every other entry is
    dropped, the bare entry [".html"] among them; and no name that begins
    with an underscore is ever registered. *)
Theorem listSections_registry :
  forall entries : list string,
    (forall v, In v (listSections entries) <->
       exists stem,
         v = JStr stem /\ stem <> "" /\ In (stem +:+ ".html") entries /\
         JsString.startsWith stem "_" = false) /\
    (forall s, JsString.startsWith s "_" = true ->
               ~ In (JStr s) (listSections entries)).
Proof.
  intros entries.
  assert (Hchar : forall v, In v (listSections entries) <->
       exists stem,
         v = JStr stem /\ stem <> "" /\ In (stem +:+ ".html") entries /\
         JsString.startsWith stem "_" = false).
  { intros v. unfold listSections. rewrite filter_In, in_map_iff. split.
    - intros [(e & He & Hin) Ht].
      destruct (proj1 (section_of_entry_kept e v) (conj He Ht))
        as (stem & Hv & Hne & -> & Hs).
      now exists stem.
    - intros (stem & Hv & Hne & Hin & Hs).
      destruct (proj2 (section_of_entry_kept (stem +:+ ".html") v)) as [He Ht].
      { now exists stem. }
      split; [|exact Ht]. now exists (stem +:+ ".html"). }
  split; [exact Hchar|].
  intros s Hs Hin. apply Hchar in Hin.
  destruct Hin as (stem & Hv & _ & _ & Hs').
  injection Hv as ->. congruence.
Qed.

(** C6, as stated, fails on the entry [".html"]: it ends in the extension
    and does not begin with an underscore, yet its stripped name, the
    empty string, is not registered. *)
Lemma listSections_drops_bare_extension :
  ~ (forall (entries : list string) (stem : string),
        In (JStr stem) (listSections entries) <->
        exists e, In e entries /\
                  JsString.endsWith e ".html" = true /\
                  String.get 0 e <> Some "_"%char /\
                  stem = JsString.substr e 0 (Z.of_nat (String.length e) - 5)).
Proof.
  intros H. destruct (H [".html"] "") as [_ Hback].
  assert (Hin : In (JStr "") (listSections [".html"])).
  { apply Hback. exists ".html".
    split; [now left|]. split; [reflexivity|]. split; [discriminate|].
    reflexivity. }
  exact Hin.
Qed.

(** ** The dispatcher, guard by guard *)

Lemma strict_eq_string_iff (v : JsVal) (x : string) :
  strict_eq_string v x = true <-> v = JStr x.
Proof.
  destruct v; simpl; try (split; [discriminate | congruence]).
  rewrite String.eqb_eq. split; congruence.
Qed.

Lemma indexOf_from_spec (l : list JsVal) (x : string) (i : Z) :
  0 <= i ->
  (In (JStr x) l /\ i <= indexOf_from l x i) \/
  (~ In (JStr x) l /\ indexOf_from l x i = -1).
Proof.
  revert i; induction l as [|v l IH]; intros i Hi; simpl.
  - right. split; [tauto | reflexivity].
  - destruct (strict_eq_string v x) eqn:E.
    + apply strict_eq_string_iff in E. left. split; [now left | lia].
    + assert (Hv : v <> JStr x).
      { intros Hv. apply strict_eq_string_iff in Hv. congruence. }
      destruct (IH (i + 1) ltac:(lia)) as [[Hin Hle] | [Hout Heq]].
      * left. split; [now right | lia].
      * right. split; [|exact Heq]. intros [Hin|Hin]; contradiction.
Qed.

(** [sections.indexOf(path) === -1] fails exactly for registered names. *)
Lemma registered_iff (l : list JsVal) (x : string) :
  (indexOf l x =? -1) = false <-> In (JStr x) l.
Proof.
  unfold indexOf. rewrite Z.eqb_neq.
  destruct (indexOf_from_spec l x 0 ltac:(lia)) as [[Hin Hle] | [Hout Heq]].
  - split; [intros _; exact Hin | lia].
  - split; [congruence | contradiction].
Qed.

Lemma inherited_member (m : Member) : inherited (member_key m) = JUndefined.
Proof. destruct m; reflexivity. Qed.

(** On a truthy record the three reads of lines 164-166 do not throw, and
    with their [|| ''] they give the record's own member or [""]. *)
Lemma member_or_empty (data : JsVal) (m : Member) :
  truthy data = true ->
  exists v, get_member data m = Normal v /\
            js_or v (JStr "") = or_empty (own_member data m).
Proof.
  intros Ht. destruct data; try discriminate Ht.
  - exists JUndefined. now destruct m.
  - exists JUndefined. now destruct m.
  - exists JUndefined. now destruct m.
  - exists JUndefined. now destruct m.
  - exists (obj_get props (member_key m)). split; [reflexivity|].
    unfold obj_get, own_member.
    destruct (props !! member_key m) as [v|]; [reflexivity|].
    rewrite inherited_member. reflexivity.
  - exists JUndefined. now destruct m.
  - destruct m; eexists; (split; [reflexivity|]); reflexivity.
  - exists JUndefined. now destruct m.
Qed.

Lemma dispatch_unregistered (h : Host) (c : Ctx) (p : string)
    (rest : option string) (st : State) :
  ~ In (JStr p) (sections h) ->
  dispatch h c p rest st = (Normal Deferred, st).
Proof.
  intros Hout. unfold dispatch.
  destruct (indexOf (sections h) p =? -1) eqn:E; [reflexivity|].
  apply registered_iff in E. contradiction.
Qed.

Lemma dispatch_section (h : Host) (c : Ctx) (p : string)
    (rest : option string) (st : State) :
  In (JStr p) (sections h) ->
  if_rest rest = None ->
  dispatch h c p rest st
  = (Normal (Rendered (feature_policy h) p (section_scope h c)), st).
Proof.
  intros Hin Hrest. apply registered_iff in Hin.
  unfold dispatch. rewrite Hin, Hrest. reflexivity.
Qed.

Lemma dispatch_subpath_elsewhere (h : Host) (c : Ctx) (p : string)
    (rest : option string) (r : string) (st : State) :
  p <> "schedule" ->
  if_rest rest = Some r ->
  dispatch h c p rest st = (Normal Deferred, st).
Proof.
  intros Hp Hrest. unfold dispatch.
  destruct (indexOf (sections h) p =? -1); [reflexivity|].
  rewrite Hrest. apply String.eqb_neq in Hp. rewrite Hp. reflexivity.
Qed.

Lemma dispatch_guarded (h : Host) (c : Ctx) (p : string)
    (rest : option string) (id : string) (st : State) :
  if_rest rest = Some id ->
  truthy (obj_get (sessions h) id) = false \/ JsString.startsWith id "_" = true ->
  dispatch h c p rest st = (Normal Deferred, st).
Proof.
  intros Hrest Hguard. unfold dispatch.
  destruct (indexOf (sections h) p =? -1); [reflexivity|].
  rewrite Hrest. destruct (negb (p =? "schedule")%string); [reflexivity|].
  destruct Hguard as [-> | ->]; [reflexivity|].
  now rewrite orb_true_r.
Qed.

Lemma dispatch_session (h : Host) (c : Ctx) (rest : option string)
    (id : string) (st : State) :
  In (JStr "schedule") (sections h) ->
  if_rest rest = Some id ->
  truthy (obj_get (sessions h) id) = true ->
  JsString.startsWith id "_" = false ->
  dispatch h c "schedule" rest st
  = match ampCss h st with
    | (Normal css, st') =>
        (Normal (Rendered (feature_policy h) "_amp-session"
                   (session_scope h c (obj_get (sessions h) id) css)), st')
    | (Throw e, st') => (Throw e, st')
    end.
Proof.
  intros Hin Hrest Ht Hs. apply registered_iff in Hin.
  unfold dispatch. rewrite Hin, Hrest, Ht, Hs.
  change (negb ("schedule" =? "schedule")%string) with false.
  change (negb true || false) with false.
  cbv beta iota. unfold bind.
  destruct (ampCss h st) as [[css|e] st']; [|reflexivity].
  destruct (member_or_empty (obj_get (sessions h) id) name Ht) as (v1 & -> & E1).
  destruct (member_or_empty (obj_get (sessions h) id) time_label Ht)
    as (v2 & -> & E2).
  destruct (member_or_empty (obj_get (sessions h) id) description Ht)
    as (v3 & -> & E3).
  unfold lift, render, ret, Scope.amp, session_scope, feature_policy.
  cbn [Scope.year Scope.prod Scope.base Scope.ua Scope.conversion
       Scope.sourcePrefix Scope.days negb orb].
  rewrite E1, E2, E3. reflexivity.
Qed.

Lemma if_rest_Some (id : string) : id <> "" -> if_rest (Some id) = Some id.
Proof.
  intros Hne. unfold if_rest. apply String.eqb_neq in Hne. now rewrite Hne.
Qed.

Lemma ampCss_available (h : Host) (st : State) :
  stylesheet_available h st ->
  exists css st', ampCss h st = (Normal css, st').
Proof.
  intros Hav. unfold ampCss.
  destruct (is_undefined (js_or (prodAmpCss h) (fallbackProdAmpCss st))) eqn:E.
  - destruct Hav as [Hkept | [result Hres]]; [congruence|].
    rewrite Hres. destruct (isProd h); eauto.
  - eauto.
Qed.

(** ** Section pages *)

(** C5 -- a request for a registered section [p] without sub-path ([rest]
    undefined or empty) is rendered: template [p], the standard layout
    ['devsummit']; the section ['schedule'] is no exception. *)
Theorem registered_section_is_rendered
    (h : Host) (c : Ctx) (p : string) (rest : option string) (st : State) :
  In (JStr p) (sections h) ->
  if_rest rest = None ->
  exists scope,
    dispatch h c p rest st = (Normal (Rendered (feature_policy h) p scope), st) /\
    Scope.layout scope = "devsummit".
Proof.
  intros Hin Hrest. exists (section_scope h c).
  split; [now apply dispatch_section | reflexivity].
Qed.

Lemma registered_section_is_rendered_witness :
  exists scope,
    dispatch (Sample.host false None) Sample.koa_ctx "schedule" None initial_state
    = (Normal (Rendered (feature_policy (Sample.host false None)) "schedule" scope),
       initial_state) /\
    Scope.layout scope = "devsummit".
Proof.
  apply (registered_section_is_rendered
           (Sample.host false None) Sample.koa_ctx "schedule" None initial_state).
  - right; left; reflexivity.
  - reflexivity.
Defined.

(** C7 -- a request with a non-empty sub-path under a section other than
    ['schedule'] is handed to the next handler and nothing is rendered
    (whether or not the section is registered). *)
Theorem subpath_of_other_section_is_deferred
    (h : Host) (c : Ctx) (p : string) (rest : option string) (r : string)
    (st : State) :
  p <> "schedule" ->
  if_rest rest = Some r ->
  dispatch h c p rest st = (Normal Deferred, st).
Proof. apply dispatch_subpath_elsewhere. Qed.

Lemma subpath_of_other_section_is_deferred_witness :
  dispatch (Sample.host false None) Sample.koa_ctx "index" (Some "keynote")
    initial_state
  = (Normal Deferred, initial_state).
Proof.
  apply (subpath_of_other_section_is_deferred
           (Sample.host false None) Sample.koa_ctx "index" (Some "keynote")
           "keynote" initial_state).
  - discriminate.
  - reflexivity.
Defined.

(** ** Session pages *)

(** C10 -- when the requested id (a non-empty segment) is a key of the
    sessions mapping whose record is falsy, the request is handed to the
    next handler, as for an unknown id: the guard tests the record, not
    the membership of the key. *)
Theorem falsy_record_is_deferred
    (h : Host) (c : Ctx) (p id : string) (data : JsVal) (st : State) :
  id <> "" ->
  sessions h !! id = Some data ->
  truthy data = false ->
  dispatch h c p (Some id) st = (Normal Deferred, st).
Proof.
  intros Hne Hlook Hf.
  apply (dispatch_guarded h c p (Some id) id st (if_rest_Some id Hne)).
  left. unfold obj_get. now rewrite Hlook.
Qed.

Lemma falsy_record_is_deferred_witness :
  dispatch (Sample.host true None) Sample.koa_ctx "schedule" (Some "tbd")
    initial_state
  = (Normal Deferred, initial_state).
Proof.
  apply (falsy_record_is_deferred
           (Sample.host true None) Sample.koa_ctx "schedule" "tbd" JNull
           initial_state).
  - discriminate.
  - reflexivity.
  - reflexivity.
Defined.

(** C1 (as the code has it) -- with ['schedule'] registered, a request
    [/schedule/<id>] whose id (a non-empty segment) does not begin with an
    underscore and is a key of the sessions mapping with a truthy record is
    rendered, provided a stylesheet can be had: template ['_amp-session'],
    layout ['amp'], and [title], [time_label] and [description] are the
    record's [name], [time_label] and [description] when these are present
    and truthy, the empty string otherwise. *)
Theorem session_page_is_rendered
    (h : Host) (c : Ctx) (id : string) (data : JsVal) (st : State) :
  In (JStr "schedule") (sections h) ->
  id <> "" ->
  sessions h !! id = Some data ->
  truthy data = true ->
  JsString.startsWith id "_" = false ->
  stylesheet_available h st ->
  exists scope st',
    dispatch h c "schedule" (Some id) st
    = (Normal (Rendered (feature_policy h) "_amp-session" scope), st') /\
    Scope.layout scope = "amp" /\
    Scope.title scope = Some (or_empty (own_member data name)) /\
    Scope.time_label scope = Some (or_empty (own_member data time_label)) /\
    Scope.description scope = Some (or_empty (own_member data description)) /\
    Scope.payload scope = Some data.
Proof.
  intros Hin Hne Hlook Ht Hs Hav.
  assert (Hget : obj_get (sessions h) id = data).
  { unfold obj_get. now rewrite Hlook. }
  destruct (ampCss_available h st Hav) as (css & st' & Hcss).
  exists (session_scope h c data css), st'.
  split; [|repeat split].
  rewrite (dispatch_session h c (Some id) id st Hin (if_rest_Some id Hne)).
  - now rewrite Hcss, Hget.
  - now rewrite Hget.
  - exact Hs.
Qed.

Lemma session_page_is_rendered_witness :
  exists scope st',
    dispatch (Sample.host false None) Sample.koa_ctx "schedule" (Some "keynote")
      initial_state
    = (Normal (Rendered (feature_policy (Sample.host false None))
                 "_amp-session" scope), st') /\
    Scope.layout scope = "amp" /\
    Scope.title scope = Some (or_empty (own_member Sample.keynote name)) /\
    Scope.time_label scope = Some (or_empty (own_member Sample.keynote time_label)) /\
    Scope.description scope
    = Some (or_empty (own_member Sample.keynote description)) /\
    Scope.payload scope = Some Sample.keynote.
Proof.
  apply (session_page_is_rendered
           (Sample.host false None) Sample.koa_ctx "keynote" Sample.keynote
           initial_state).
  - right; left; reflexivity.
  - discriminate.
  - reflexivity.
  - reflexivity.
  - reflexivity.
  - right. exists "body{}". reflexivity.
Defined.

(** C1, as stated, fails when the key is present with a falsy record:
    ["tbd"] is a key of the sessions mapping, does not begin with an
    underscore, and the request is handed to the next handler. *)
Lemma null_record_is_not_rendered :
  let h := Sample.host true (Some "body{}") in
  In (JStr "schedule") (sections h) /\
  is_Some (sessions h !! "tbd") /\
  JsString.startsWith "tbd" "_" = false /\
  stylesheet_available h initial_state /\
  dispatch h Sample.koa_ctx "schedule" (Some "tbd") initial_state
  = (Normal Deferred, initial_state).
Proof.
  cbv zeta. split; [right; left; reflexivity|].
  split; [exists JNull; reflexivity|].
  split; [reflexivity|].
  split; [left; reflexivity|].
  reflexivity.
Qed.

(** C2 at the id ["constructor"]: it is no key of the sessions mapping and
    does not begin with an underscore, but the lookup finds the function
    that every object inherits under that name, and the AMP page is
    rendered with that function as its payload. *)
Theorem inherited_key_is_rendered :
  let h := Sample.host true (Some "body{}") in
  sessions h !! "constructor" = None /\
  JsString.startsWith "constructor" "_" = false /\
  dispatch h Sample.koa_ctx "schedule" (Some "constructor") initial_state
  = (Normal (Rendered (feature_policy h) "_amp-session"
               (session_scope h Sample.koa_ctx (JFun "Object")
                  (JBuffer "body{}"))),
     initial_state).
Proof.
  cbv zeta. split; [reflexivity|]. split; [reflexivity|].
  vm_compute. reflexivity.
Qed.

(** What does hold of C2: an id (a non-empty segment) that begins with an
    underscore, or that is neither a key of the sessions mapping nor the
    name of an inherited property, is handed to the next handler, and the
    state is left as it was. *)
Theorem reserved_or_unknown_id_is_deferred
    (h : Host) (c : Ctx) (p id : string) (st : State) :
  id <> "" ->
  JsString.startsWith id "_" = true \/
  (sessions h !! id = None /\ inherited id = JUndefined) ->
  dispatch h c p (Some id) st = (Normal Deferred, st).
Proof.
  intros Hne Hcase.
  apply (dispatch_guarded h c p (Some id) id st (if_rest_Some id Hne)).
  destruct Hcase as [Hs | [Hnone Hinh]]; [now right|].
  left. unfold obj_get. now rewrite Hnone, Hinh.
Qed.

Lemma reserved_or_unknown_id_is_deferred_witness :
  dispatch (Sample.host true None) Sample.koa_ctx "schedule" (Some "_draft")
    initial_state
  = (Normal Deferred, initial_state) /\
  dispatch (Sample.host true None) Sample.koa_ctx "schedule" (Some "missing")
    initial_state
  = (Normal Deferred, initial_state).
Proof.
  split.
  - apply (reserved_or_unknown_id_is_deferred
             (Sample.host true None) Sample.koa_ctx "schedule" "_draft"
             initial_state).
    + discriminate.
    + left. reflexivity.
  - apply (reserved_or_unknown_id_is_deferred
             (Sample.host true None) Sample.koa_ctx "schedule" "missing"
             initial_state).
    + discriminate.
    + right. split; reflexivity.
Defined.

(** ** The two kinds of rendered request *)

Lemma amp_request_inv (h : Host) (r : Request) :
  amp_request h r = true ->
  In (JStr "schedule") (sections h) /\ path r = "schedule" /\
  exists id, if_rest (rest r) = Some id /\
             truthy (obj_get (sessions h) id) = true /\
             JsString.startsWith id "_" = false.
Proof.
  unfold amp_request. intros A.
  apply andb_prop in A. destruct A as [A A3].
  apply andb_prop in A. destruct A as [A1 A2].
  apply String.eqb_eq in A2.
  apply negb_true_iff, registered_iff in A1. rewrite A2 in A1.
  split; [exact A1|]. split; [exact A2|].
  destruct (if_rest (rest r)) as [id|]; [|discriminate].
  apply andb_prop in A3. destruct A3 as [A3 A4].
  exists id. split; [reflexivity|]. split; [exact A3|].
  now apply negb_true_iff in A4.
Qed.

Lemma handle_amp (h : Host) (r : Request) (st : State) :
  amp_request h r = true ->
  handle h r st
  = match ampCss h st with
    | (Normal css, st') =>
        (Normal (Rendered (feature_policy h) "_amp-session"
                   (session_scope h (ctx r) (session_of h r) css)), st')
    | (Throw e, st') => (Throw e, st')
    end.
Proof.
  intros A. destruct (amp_request_inv h r A) as (Hin & Hp & id & Hrest & Ht & Hs).
  unfold handle, session_of. rewrite Hp, Hrest.
  now apply dispatch_session.
Qed.

Lemma handle_not_amp (h : Host) (r : Request) (st : State) :
  amp_request h r = false ->
  handle h r st = (Normal Deferred, st) \/
  (if_rest (rest r) = None /\
   handle h r st
   = (Normal (Rendered (feature_policy h) (path r) (section_scope h (ctx r))), st)).
Proof.
  unfold amp_request, handle, dispatch. intros A.
  destruct (indexOf (sections h) (path r) =? -1); [left; reflexivity|].
  destruct (if_rest (rest r)) as [id|]; [left | right; split; reflexivity].
  destruct (path r =? "schedule")%string; [|reflexivity].
  destruct (truthy (obj_get (sessions h) id)); [|reflexivity].
  destruct (JsString.startsWith id "_"); [reflexivity | discriminate].
Qed.

(** Every rendered response is a section page, served without touching
    the state, or the AMP page of a session with the stylesheet that
    [ampCss] answered. *)
Lemma handle_rendered (h : Host) (r : Request) (st st1 : State)
    (hd : list (string * string)) (p : string) (sc : Scope.t) :
  handle h r st = (Normal (Rendered hd p sc), st1) ->
  hd = feature_policy h /\
  ((amp_request h r = false /\ p = path r /\ sc = section_scope h (ctx r) /\
    st1 = st) \/
   (amp_request h r = true /\ p = "_amp-session" /\
    exists css, ampCss h st = (Normal css, st1) /\
                sc = session_scope h (ctx r) (session_of h r) css)).
Proof.
  intros H. destruct (amp_request h r) eqn:A.
  - rewrite (handle_amp h r st A) in H.
    destruct (ampCss h st) as [[css|e] st'] eqn:Hcss; [|discriminate].
    injection H as <- <- <- <-.
    split; [reflexivity|]. right. split; [reflexivity|].
    split; [reflexivity|]. now exists css.
  - destruct (handle_not_amp h r st A) as [Hd | [_ Hr]].
    + rewrite Hd in H. discriminate.
    + rewrite Hr in H. injection H as <- <- <- <-.
      split; [reflexivity|]. left. repeat split.
Qed.

(** ** The stylesheet cache *)

Lemma load_inv (w : World) (h : Host) :
  load w = Normal h ->
  isProd h = NODE_ENV_production w /\
  prodAmpCss h = (if NODE_ENV_production w
                  then readProdAmpCss (res_amp_css w) else JUndefined) /\
  less_render h = less w /\
  exists entries, sections_dir w = Some entries /\
                  sections h = listSections entries.
Proof.
  unfold load. destruct (sections_dir w) as [entries|]; [|discriminate].
  intros H. injection H as <-. simpl. repeat split. now exists entries.
Qed.

(** With a truthy eager value the preprocessor is not called. *)
Lemma ampCss_eager (h : Host) (st : State) :
  truthy (prodAmpCss h) = true ->
  ampCss h st = (Normal (prodAmpCss h), st).
Proof.
  intros Ht. unfold ampCss, js_or. rewrite Ht.
  destruct (prodAmpCss h); try discriminate Ht; reflexivity.
Qed.

(** Without eager value, a kept stylesheet is answered as it is. *)
Lemma ampCss_kept (h : Host) (st : State) (css : string) :
  truthy (prodAmpCss h) = false ->
  fallbackProdAmpCss st = JStr css ->
  ampCss h st = (Normal (JStr css), st).
Proof.
  intros Hf Hk. unfold ampCss, js_or. rewrite Hf, Hk. reflexivity.
Qed.

(** Without eager or kept value the preprocessor is called, and only
    production keeps its answer. *)
Lemma ampCss_render (h : Host) (st : State) :
  truthy (prodAmpCss h) = false ->
  fallbackProdAmpCss st = JUndefined ->
  ampCss h st
  = match less_render h (less_calls st) with
    | Some css =>
        (Normal (JStr css),
         {| fallbackProdAmpCss := if isProd h then JStr css else JUndefined;
            less_calls := S (less_calls st) |})
    | None =>
        (Throw LessError,
         {| fallbackProdAmpCss := JUndefined; less_calls := S (less_calls st) |})
    end.
Proof.
  intros Hf Hk. unfold ampCss, js_or. rewrite Hf, Hk. simpl.
  destruct (less_render h (less_calls st)); [|reflexivity].
  destruct (isProd h); reflexivity.
Qed.

Lemma serve_cons (h : Host) (r : Request) (rs : list Request) (st : State) :
  serve h (r :: rs) st
  = ((handle h r st).1 :: (serve h rs (handle h r st).2).1,
     (serve h rs (handle h r st).2).2).
Proof.
  simpl. destruct (handle h r st) as [o st']. simpl.
  destruct (serve h rs st') as [os st'']. reflexivity.
Qed.

Lemma serve_eager (h : Host) (rs : list Request) (st : State) :
  truthy (prodAmpCss h) = true ->
  (serve h rs st).2 = st.
Proof.
  intros Ht. revert st; induction rs as [|r rs IH]; intros st; [reflexivity|].
  rewrite serve_cons. simpl.
  assert (Hst : (handle h r st).2 = st).
  { destruct (amp_request h r) eqn:A.
    - rewrite (handle_amp h r st A), (ampCss_eager h st Ht). reflexivity.
    - destruct (handle_not_amp h r st A) as [-> | [_ ->]]; reflexivity. }
  rewrite Hst. apply IH.
Qed.

Lemma serve_kept (h : Host) (rs : list Request) (st : State) (css : string) :
  truthy (prodAmpCss h) = false ->
  fallbackProdAmpCss st = JStr css ->
  Forall (fun r => amp_request h r = true) rs ->
  serve h rs st = (List.map (amp_page h (JStr css)) rs, st).
Proof.
  intros Hf Hk Hall. induction Hall as [|r rs A _ IH]; [reflexivity|].
  rewrite serve_cons, (handle_amp h r st A), (ampCss_kept h st css Hf Hk).
  simpl. rewrite IH. reflexivity.
Qed.

Lemma serve_rerender (h : Host) (rs : list Request) (st : State) :
  isProd h = false ->
  truthy (prodAmpCss h) = false ->
  Forall (fun r => amp_request h r = true) rs ->
  fallbackProdAmpCss st = JUndefined ->
  fallbackProdAmpCss (serve h rs st).2 = JUndefined /\
  less_calls (serve h rs st).2 = (less_calls st + length rs)%nat.
Proof.
  intros Hdev Hf Hall. revert st.
  induction Hall as [|r rs A _ IH]; intros st Hk.
  - simpl. split; [exact Hk | lia].
  - rewrite serve_cons. simpl.
    assert (Hst : (handle h r st).2
                  = {| fallbackProdAmpCss := JUndefined;
                       less_calls := S (less_calls st) |}).
    { rewrite (handle_amp h r st A), (ampCss_render h st Hf Hk), Hdev.
      destruct (less_render h (less_calls st)); reflexivity. }
    rewrite Hst.
    destruct (IH {| fallbackProdAmpCss := JUndefined;
                    less_calls := S (less_calls st) |} eq_refl) as [IH1 IH2].
    split; [exact IH1|]. rewrite IH2. simpl. lia.
Qed.

(** C4 -- over a sequence [rs] of AMP-rendering requests served by a
    loaded module: in production with the artifact [res/amp.css] read at
    startup, the state never changes, so the preprocessor is never called;
    in production without the artifact, a first AMP request served while the
    fallback cell is empty calls the preprocessor once and stores its
    answer in the cell, and every later request is answered with the
    stored value without a further call; outside production the cell stays
    empty and every request calls the preprocessor. *)
Theorem amp_css_cache (w : World) (h : Host) (rs : list Request) :
  load w = Normal h ->
  Forall (fun r => amp_request h r = true) rs ->
  (NODE_ENV_production w = true -> is_Some (res_amp_css w) ->
   forall st, (serve h rs st).2 = st) /\
  (NODE_ENV_production w = true -> res_amp_css w = None ->
   forall (r : Request) (css : string) (st : State),
     amp_request h r = true ->
     fallbackProdAmpCss st = JUndefined ->
     less w (less_calls st) = Some css ->
     let stored := {| fallbackProdAmpCss := JStr css;
                      less_calls := S (less_calls st) |} in
     handle h r st = (amp_page h (JStr css) r, stored) /\
     serve h rs stored = (List.map (amp_page h (JStr css)) rs, stored)) /\
  (NODE_ENV_production w = false ->
   forall st, fallbackProdAmpCss st = JUndefined ->
     fallbackProdAmpCss (serve h rs st).2 = JUndefined /\
     less_calls (serve h rs st).2 = (less_calls st + length rs)%nat).
Proof.
  intros Hload Hall.
  destruct (load_inv w h Hload) as (Hprod & Heager & Hless & _).
  split; [|split].
  - intros Hp [bytes Hfile] st. apply serve_eager.
    rewrite Heager, Hp, Hfile. reflexivity.
  - intros Hp Hfile r css st A Hk Hcss stored.
    assert (Hf : truthy (prodAmpCss h) = false).
    { rewrite Heager, Hp, Hfile. reflexivity. }
    split.
    + rewrite (handle_amp h r st A), (ampCss_render h st Hf Hk).
      rewrite Hless, Hcss, Hprod, Hp. reflexivity.
    + now apply serve_kept.
  - intros Hp st Hk. apply serve_rerender; try assumption.
    + now rewrite Hprod.
    + rewrite Heager, Hp. reflexivity.
Qed.

Lemma amp_css_cache_witness :
  let h := Sample.host true None in
  let r := Sample.session_request "keynote" in
  let stored := {| fallbackProdAmpCss := JStr "body{}"; less_calls := 1 |} in
  handle h r initial_state = (amp_page h (JStr "body{}") r, stored) /\
  serve h [r; r] stored = ([amp_page h (JStr "body{}") r;
                            amp_page h (JStr "body{}") r], stored).
Proof.
  cbv zeta.
  refine (proj1 (proj2 (amp_css_cache (Sample.world true None)
                          (Sample.host true None)
                          [Sample.session_request "keynote";
                           Sample.session_request "keynote"]
                          eq_refl _))
            eq_refl eq_refl (Sample.session_request "keynote") "body{}"
            initial_state eq_refl eq_refl eq_refl).
  repeat constructor.
Defined.

(** C8 -- in production, when [res/amp.css] cannot be read at startup,
    [readProdAmpCss] answers [undefined], the module loads all the same
    (the sections directory being readable), and the first AMP request
    gets its stylesheet from the preprocessor. *)
Theorem unreadable_artifact_is_swallowed (w : World) (entries : list string) :
  NODE_ENV_production w = true ->
  res_amp_css w = None ->
  sections_dir w = Some entries ->
  readProdAmpCss (res_amp_css w) = JUndefined /\
  exists h,
    load w = Normal h /\ prodAmpCss h = JUndefined /\
    forall (r : Request) (css : string),
      amp_request h r = true ->
      less w 0 = Some css ->
      handle h r initial_state
      = (amp_page h (JStr css) r,
         {| fallbackProdAmpCss := JStr css; less_calls := 1 |}).
Proof.
  intros Hp Hfile Hdir. split; [now rewrite Hfile|].
  unfold load. rewrite Hdir, Hp, Hfile. simpl.
  eexists. split; [reflexivity|]. split; [reflexivity|].
  intros r css A Hcss.
  rewrite (handle_amp _ r initial_state A), ampCss_render by reflexivity.
  simpl. rewrite Hcss. reflexivity.
Qed.

Lemma unreadable_artifact_is_swallowed_witness :
  readProdAmpCss (res_amp_css (Sample.world true None)) = JUndefined /\
  exists h,
    load (Sample.world true None) = Normal h /\ prodAmpCss h = JUndefined /\
    forall (r : Request) (css : string),
      amp_request h r = true ->
      less (Sample.world true None) 0 = Some css ->
      handle h r initial_state
      = (amp_page h (JStr css) r,
         {| fallbackProdAmpCss := JStr css; less_calls := 1 |}).
Proof.
  apply (unreadable_artifact_is_swallowed (Sample.world true None)
           ["index.html"; "schedule.html"; "_amp-session.html"]);
    reflexivity.
Defined.

(** ** Repeated requests *)

(** In production a stylesheet answered once is answered again. *)
Lemma ampCss_again (h : Host) (st st1 st2 : State) (css1 css2 : JsVal) :
  isProd h = true ->
  ampCss h st = (Normal css1, st1) ->
  ampCss h st1 = (Normal css2, st2) ->
  css1 = css2.
Proof.
  intros Hp H1 H2. unfold ampCss in H1.
  destruct (is_undefined (js_or (prodAmpCss h) (fallbackProdAmpCss st))) eqn:E.
  - destruct (less_render h (less_calls st)) as [css|]; [|discriminate].
    rewrite Hp in H1. injection H1 as <- <-.
    assert (Hf : truthy (prodAmpCss h) = false).
    { unfold js_or in E. destruct (truthy (prodAmpCss h)) eqn:Ht; [|reflexivity].
      destruct (prodAmpCss h); discriminate. }
    rewrite (ampCss_kept h {| fallbackProdAmpCss := JStr css;
                              less_calls := S (less_calls st) |} css Hf eq_refl)
      in H2.
    now injection H2.
  - injection H1 as <- <-. unfold ampCss in H2. rewrite E in H2.
    now injection H2.
Qed.

(** C9 -- two renderings of the same request by the same host, whatever
    the state of the stylesheet cell at each, carry the same header and
    template and contexts that agree in every member but [styles]; the
    contexts of a section page are identical; and in production the
    contexts of a request served again right after itself are identical,
    stylesheet included. *)
Theorem repeated_request_same_context
    (h : Host) (r : Request) (st st' st1 st2 : State)
    (hd1 hd2 : list (string * string)) (p1 p2 : string) (sc1 sc2 : Scope.t) :
  handle h r st = (Normal (Rendered hd1 p1 sc1), st1) ->
  handle h r st' = (Normal (Rendered hd2 p2 sc2), st2) ->
  hd1 = hd2 /\ p1 = p2 /\
  Scope.without_styles sc1 = Scope.without_styles sc2 /\
  (amp_request h r = false -> sc1 = sc2) /\
  (isProd h = true -> st' = st1 -> sc1 = sc2).
Proof.
  intros H1 H2.
  destruct (handle_rendered h r st st1 hd1 p1 sc1 H1) as [-> C1].
  destruct (handle_rendered h r st' st2 hd2 p2 sc2 H2) as [-> C2].
  split; [reflexivity|].
  destruct C1 as [(A1 & -> & -> & _) | (A1 & -> & css1 & Hc1 & ->)];
    destruct C2 as [(A2 & -> & -> & _) | (A2 & -> & css2 & Hc2 & ->)];
    try congruence.
  - repeat split.
  - split; [reflexivity|]. split; [reflexivity|].
    split; [congruence|].
    intros Hp ->. now rewrite (ampCss_again h st st1 st2 css1 css2 Hp Hc1 Hc2).
Qed.

Lemma repeated_request_same_context_witness :
  let h := Sample.live_host in
  let r := Sample.session_request "keynote" in
  let first := session_scope h (ctx r) (session_of h r) (JStr "body{}") in
  let second := session_scope h (ctx r) (session_of h r) (JStr "body{margin:0}") in
  feature_policy h = feature_policy h /\
  "_amp-session" = "_amp-session" /\
  Scope.without_styles first = Scope.without_styles second /\
  (amp_request h r = false -> first = second) /\
  (isProd h = true ->
   {| fallbackProdAmpCss := JUndefined; less_calls := 1 |}
   = {| fallbackProdAmpCss := JUndefined; less_calls := 1 |} ->
   first = second).
Proof.
  cbv zeta.
  exact (repeated_request_same_context
           Sample.live_host (Sample.session_request "keynote")
           initial_state
           {| fallbackProdAmpCss := JUndefined; less_calls := 1 |}
           {| fallbackProdAmpCss := JUndefined; less_calls := 1 |}
           {| fallbackProdAmpCss := JUndefined; less_calls := 2 |}
           _ _ _ _ _ _ eq_refl eq_refl).
Defined.

(** * Further properties of the code *)

(** ** Mount path of a mounted application *)

Lemma append_prefix_eq (pre base x y : string) :
  pre +:+ x = base +:+ y ->
  String.length pre = String.length base ->
  pre = base.
Proof.
  revert base; induction pre as [|a pre IH]; intros [|b base] H Hlen;
    try discriminate Hlen; [reflexivity|].
  rewrite !JsStringFacts.append_String in H. injection H as -> H.
  f_equal. apply (IH base H). now injection Hlen.
Qed.

(** When the original URL is a mount prefix followed by the current URL,
    as [koa-mount] leaves them, [mountUrl] answers that prefix, also when
    the current URL occurs inside the prefix or is empty. *)
Theorem mountUrl_recovers_prefix :
  forall (base current : string) (hd : option string),
    mountUrl {| originalUrl := Some (base +:+ current); url := current;
                req_headers_host := hd |} = base.
Proof.
  intros base current hd.
  assert (Hocc : JsString.occurs_at current (base +:+ current)
                   (String.length base)).
  { exists base, "". split; [|reflexivity].
    now rewrite JsStringFacts.append_nil_r. }
  destruct (mountUrl_cases current hd (base +:+ current))
    as [[_ Hnone] | (pre & post & Ho & -> & Hlast)].
  - now apply Hnone in Hocc.
  - apply Hlast in Hocc.
    pose proof (f_equal String.length Ho) as Hlen.
    rewrite !JsStringFacts.length_append in Hlen.
    symmetry in Ho. apply (append_prefix_eq pre base _ _ Ho). lia.
Qed.

(** ** The registry of a loaded module *)

Lemma listSections_elem (entries : list string) (v : JsVal) :
  In v (listSections entries) <->
  exists stem,
    v = JStr stem /\ stem <> "" /\ In (stem +:+ ".html") entries /\
    JsString.startsWith stem "_" = false.
Proof.
  unfold listSections. rewrite filter_In, in_map_iff. split.
  - intros [(e & He & Hin) Ht].
    destruct (proj1 (section_of_entry_kept e v) (conj He Ht))
      as (stem & Hv & Hne & -> & Hs).
    now exists stem.
  - intros (stem & Hv & Hne & Hin & Hs).
    destruct (proj2 (section_of_entry_kept (stem +:+ ".html") v)) as [He Ht].
    { now exists stem. }
    split; [|exact Ht]. now exists (stem +:+ ".html").
Qed.

Lemma listSections_cons (e : string) (entries : list string) :
  listSections (e :: entries)
  = if truthy (section_of_entry e)
    then section_of_entry e :: listSections entries
    else listSections entries.
Proof. reflexivity. Qed.

(** A directory listing names each entry once, and then the registry
    names each section once: two entries never share a stem. *)
Theorem listSections_NoDup (entries : list string) :
  List.NoDup entries -> List.NoDup (listSections entries).
Proof.
  induction 1 as [|e entries Hout _ IH]; [constructor|].
  rewrite listSections_cons.
  destruct (truthy (section_of_entry e)) eqn:Ht; [|exact IH].
  constructor; [|exact IH].
  intros Hin. apply listSections_elem in Hin.
  destruct Hin as (stem & Hv & _ & Hin & _).
  destruct (proj1 (section_of_entry_kept e (section_of_entry e))
              (conj eq_refl Ht)) as (stem' & Hv' & _ & -> & _).
  rewrite Hv' in Hv. injection Hv as ->. contradiction.
Qed.

Lemma listSections_NoDup_witness :
  List.NoDup (listSections ["index.html"; "schedule.html"; "_amp-session.html";
                            "index.htm"; ".html"]).
Proof.
  apply (listSections_NoDup ["index.html"; "schedule.html"; "_amp-session.html";
                             "index.htm"; ".html"]).
  repeat (constructor; [simpl; intuition discriminate|]). constructor.
Defined.

(** A loaded module hands every request whose section name is empty or
    begins with an underscore to the next handler, whatever the sub-path
    and the state: partials such as [_amp-session] cannot be asked for as
    a section. *)
Theorem reserved_path_is_deferred
    (w : World) (h : Host) (c : Ctx) (p : string) (rest : option string)
    (st : State) :
  load w = Normal h ->
  JsString.startsWith p "_" = true \/ p = "" ->
  dispatch h c p rest st = (Normal Deferred, st).
Proof.
  intros Hload Hp. apply dispatch_unregistered.
  destruct (load_inv w h Hload) as (_ & _ & _ & entries & _ & ->).
  intros Hin. apply listSections_elem in Hin.
  destruct Hin as (stem & Hv & Hne & _ & Hs). injection Hv as <-.
  destruct Hp as [Hp | Hp]; congruence.
Qed.

Lemma reserved_path_is_deferred_witness :
  dispatch (Sample.host true None) Sample.koa_ctx "_amp-session"
    (Some "keynote") initial_state
  = (Normal Deferred, initial_state).
Proof.
  apply (reserved_path_is_deferred (Sample.world true None)
           (Sample.host true None) Sample.koa_ctx "_amp-session"
           (Some "keynote") initial_state).
  - reflexivity.
  - left. reflexivity.
Defined.

(** Whatever a loaded module renders is the AMP template or a section
    whose content file [<p>.html] was in the sections directory at
    startup. *)
Theorem rendered_template_has_file
    (w : World) (h : Host) (r : Request) (st st' : State)
    (hd : list (string * string)) (p : string) (sc : Scope.t) :
  load w = Normal h ->
  handle h r st = (Normal (Rendered hd p sc), st') ->
  (p = "_amp-session" /\ amp_request h r = true) \/
  (p = path r /\
   exists entries, sections_dir w = Some entries /\ In (p +:+ ".html") entries).
Proof.
  intros Hload H.
  destruct (handle_rendered h r st st' hd p sc H)
    as [_ [(A & -> & _ & _) | (A & -> & _)]]; [right | now left].
  split; [reflexivity|].
  destruct (load_inv w h Hload) as (_ & _ & _ & entries & Hdir & Hsec).
  exists entries. split; [exact Hdir|].
  destruct (indexOf (sections h) (path r) =? -1) eqn:E.
  - unfold handle, dispatch in H. rewrite E in H. discriminate.
  - apply registered_iff in E. rewrite Hsec in E.
    apply listSections_elem in E.
    destruct E as (stem & Hv & _ & Hin & _). now injection Hv as <-.
Qed.

Lemma rendered_template_has_file_witness :
  ("index" = "_amp-session" /\
   amp_request (Sample.host false None) (Scenario.section_request "index") = true) \/
  ("index" = path (Scenario.section_request "index") /\
   exists entries,
     sections_dir (Sample.world false None) = Some entries /\
     In ("index" +:+ ".html") entries).
Proof.
  exact (rendered_template_has_file (Sample.world false None)
           (Sample.host false None) (Scenario.section_request "index")
           initial_state initial_state _ "index" _ eq_refl eq_refl).
Defined.

(** ** Which requests are deferred, and which throw *)

Lemma js_or_undefined (a b : JsVal) :
  is_undefined (js_or a b) = true -> truthy a = false /\ b = JUndefined.
Proof.
  unfold js_or. destruct (truthy a) eqn:Ht.
  - destruct a; discriminate.
  - destruct b; try discriminate. now split.
Qed.

(** With an eager or kept value at hand [ampCss] answers it and leaves
    the state as it is. *)
Lemma ampCss_ready (h : Host) (st : State) :
  is_undefined (js_or (prodAmpCss h) (fallbackProdAmpCss st)) = false ->
  ampCss h st = (Normal (js_or (prodAmpCss h) (fallbackProdAmpCss st)), st).
Proof. intros E. unfold ampCss. now rewrite E. Qed.

(** The dispatcher hands a request on exactly when its section is not
    registered, or when it has a sub-path and the section is not
    ['schedule'], the record looked up is falsy, or the id begins with an
    underscore; the state is then left as it was. *)
Theorem deferred_iff (h : Host) (r : Request) (st st' : State) :
  handle h r st = (Normal Deferred, st') <->
  st' = st /\
  (~ In (JStr (path r)) (sections h) \/
   exists id, if_rest (rest r) = Some id /\
              (path r <> "schedule" \/
               truthy (obj_get (sessions h) id) = false \/
               JsString.startsWith id "_" = true)).
Proof.
  split.
  - intros H. destruct (amp_request h r) eqn:A.
    + rewrite (handle_amp h r st A) in H.
      destruct (ampCss h st) as [[css|e] st1]; discriminate.
    + destruct (handle_not_amp h r st A) as [Hd | [Hrest Hr]].
      2: { rewrite Hr in H. discriminate. }
      rewrite Hd in H. injection H as <-. split; [reflexivity|].
      destruct (indexOf (sections h) (path r) =? -1) eqn:E.
      * left. intros Hin. apply registered_iff in Hin. congruence.
      * right. destruct (if_rest (rest r)) as [id|] eqn:Hrest.
        2: { apply registered_iff in E. unfold handle in Hd.
             rewrite (dispatch_section h (ctx r) (path r) (rest r) st E Hrest)
               in Hd.
             discriminate. }
        exists id. split; [reflexivity|].
        unfold amp_request in A. rewrite E, Hrest in A. simpl in A.
        destruct (String.eqb_spec (path r) "schedule") as [_|Hp];
          [|now left].
        right. simpl in A.
        destruct (truthy (obj_get (sessions h) id)); [|now left].
        right. now destruct (JsString.startsWith id "_").
  - intros [-> [Hout | (id & Hrest & [Hp | Hguard])]].
    + now apply dispatch_unregistered.
    + now apply (dispatch_subpath_elsewhere h (ctx r) (path r) (rest r) id).
    + now apply (dispatch_guarded h (ctx r) (path r) (rest r) id).
Qed.

Lemma handle_throws (h : Host) (r : Request) (st st' : State) (e : JsError) :
  handle h r st = (Throw e, st') ->
  e = LessError /\
  amp_request h r = true /\
  truthy (prodAmpCss h) = false /\
  fallbackProdAmpCss st = JUndefined /\
  less_render h (less_calls st) = None /\
  st' = {| fallbackProdAmpCss := JUndefined; less_calls := S (less_calls st) |}.
Proof.
  intros H. destruct (amp_request h r) eqn:A.
  - rewrite (handle_amp h r st A) in H.
    destruct (is_undefined (js_or (prodAmpCss h) (fallbackProdAmpCss st)))
      eqn:E.
    + destruct (js_or_undefined _ _ E) as [Hf Hk].
      rewrite (ampCss_render h st Hf Hk) in H.
      destruct (less_render h (less_calls st)); [discriminate|].
      injection H as <- <-. repeat split; assumption.
    + rewrite (ampCss_ready h st E) in H. discriminate.
  - destruct (handle_not_amp h r st A) as [Hd | [_ Hr]];
      rewrite H in *; discriminate.
Qed.


(** A rejected rendering is not remembered: the next AMP-rendering
    request calls the preprocessor again, and when that call answers the
    page is rendered with the answer, which production then keeps. *)
Theorem rejected_render_is_retried
    (h : Host) (r r' : Request) (st st' : State) (e : JsError) (css : string) :
  handle h r st = (Throw e, st') ->
  amp_request h r' = true ->
  less_render h (S (less_calls st)) = Some css ->
  handle h r' st'
  = (amp_page h (JStr css) r',
     {| fallbackProdAmpCss := if isProd h then JStr css else JUndefined;
        less_calls := S (S (less_calls st)) |}).
Proof.
  intros H A' Hcss.
  destruct (handle_throws h r st st' e H) as (_ & _ & Hf & _ & _ & ->).
  rewrite (handle_amp h r' _ A'), ampCss_render by (exact Hf || reflexivity).
  simpl. now rewrite Hcss.
Qed.

Lemma rejected_render_is_retried_witness :
  handle Scenario.flaky_less_host (Sample.session_request "keynote")
    {| fallbackProdAmpCss := JUndefined; less_calls := 1 |}
  = (amp_page Scenario.flaky_less_host (JStr "body{}")
       (Sample.session_request "keynote"),
     {| fallbackProdAmpCss := JStr "body{}"; less_calls := 2 |}).
Proof.
  apply (rejected_render_is_retried Scenario.flaky_less_host
           (Sample.session_request "keynote") (Sample.session_request "keynote")
           initial_state _ LessError "body{}");
    reflexivity.
Defined.

Lemma handle_not_amp_uniform (h : Host) (r : Request) :
  amp_request h r = false ->
  exists o, forall st, handle h r st = (o, st).
Proof.
  unfold amp_request, handle, dispatch. intros A.
  destruct (indexOf (sections h) (path r) =? -1); [now eexists|].
  destruct (if_rest (rest r)) as [id|]; [|now eexists].
  destruct (path r =? "schedule")%string; [|now eexists].
  destruct (truthy (obj_get (sessions h) id)); [|now eexists].
  destruct (JsString.startsWith id "_"); [now eexists | discriminate].
Qed.

(** A request that is not AMP-rendering is answered without reading or
    writing the stylesheet cell. *)
Theorem other_requests_ignore_the_cell
    (h : Host) (r : Request) (st st0 : State) :
  amp_request h r = false ->
  handle h r st = ((handle h r st0).1, st).
Proof.
  intros A. destruct (handle_not_amp_uniform h r A) as [o Ho].
  now rewrite (Ho st), (Ho st0).
Qed.

Lemma other_requests_ignore_the_cell_witness :
  handle (Sample.host true None) (Sample.session_request "missing")
    {| fallbackProdAmpCss := JStr "body{}"; less_calls := 1 |}
  = ((handle (Sample.host true None) (Sample.session_request "missing")
        initial_state).1,
     {| fallbackProdAmpCss := JStr "body{}"; less_calls := 1 |}).
Proof.
  apply (other_requests_ignore_the_cell (Sample.host true None)
           (Sample.session_request "missing")).
  reflexivity.
Defined.

(** ** The stylesheet cell over any sequence of requests *)

(** The state after a request is the state before it, or the state in
    which [ampCss] leaves it. *)
Lemma handle_state (h : Host) (r : Request) (st : State) :
  (handle h r st).2 = st \/ (handle h r st).2 = (ampCss h st).2.
Proof.
  destruct (amp_request h r) eqn:A.
  - right. rewrite (handle_amp h r st A).
    now destruct (ampCss h st) as [[css|e] st'].
  - left. destruct (handle_not_amp h r st A) as [-> | [_ ->]]; reflexivity.
Qed.

Lemma ampCss_filled (h : Host) (st : State) :
  fallbackProdAmpCss st <> JUndefined -> (ampCss h st).2 = st.
Proof.
  intros Hk.
  destruct (is_undefined (js_or (prodAmpCss h) (fallbackProdAmpCss st))) eqn:E.
  - apply js_or_undefined in E. now destruct E.
  - now rewrite ampCss_ready.
Qed.

(** Once the fallback cell holds a value, no request changes the state
    any more: the value is never replaced and the preprocessor is never
    called again, in production or outside it. *)
Theorem filled_cell_is_final (h : Host) (rs : list Request) (st : State) :
  fallbackProdAmpCss st <> JUndefined ->
  (serve h rs st).2 = st.
Proof.
  intros Hk. induction rs as [|r rs IH]; [reflexivity|].
  rewrite serve_cons. simpl.
  assert (Hst : (handle h r st).2 = st).
  { destruct (handle_state h r st) as [H | H]; [exact H|].
    now rewrite H, ampCss_filled. }
  now rewrite Hst.
Qed.

Lemma filled_cell_is_final_witness :
  (serve (Sample.host false None) Scenario.visit
     {| fallbackProdAmpCss := JStr "body{}"; less_calls := 1 |}).2
  = {| fallbackProdAmpCss := JStr "body{}"; less_calls := 1 |}.
Proof.
  apply (filled_cell_is_final (Sample.host false None) Scenario.visit
           {| fallbackProdAmpCss := JStr "body{}"; less_calls := 1 |}).
  discriminate.
Defined.

Lemma ampCss_answered (h : Host) (st : State) :
  cell_answered h st -> cell_answered h (ampCss h st).2.
Proof.
  intros Hinv.
  destruct (is_undefined (js_or (prodAmpCss h) (fallbackProdAmpCss st))) eqn:E.
  - destruct (js_or_undefined _ _ E) as [Hf Hk].
    rewrite (ampCss_render h st Hf Hk).
    destruct (less_render h (less_calls st)) as [css|] eqn:Hless;
      [|now left].
    destruct (isProd h) eqn:Hp; [|now left].
    right. split; [exact Hp|].
    exists (less_calls st), css. simpl.
    split; [lia|]. split; [exact Hless | reflexivity].
  - now rewrite ampCss_ready.
Qed.

(** From startup on, whatever requests are served, the fallback cell is
    empty or holds, in production only, the answer of one of the
    preprocessor calls made so far; outside production it stays empty. *)
Theorem cell_is_empty_or_answered :
  forall (h : Host) (rs : list Request),
    cell_answered h (serve h rs initial_state).2.
Proof.
  intros h rs.
  assert (Hinv : forall st, cell_answered h st ->
                            cell_answered h (serve h rs st).2).
  { induction rs as [|r rs IH]; intros st Hst; [exact Hst|].
    rewrite serve_cons. simpl. apply IH.
    destruct (handle_state h r st) as [-> | ->];
      [exact Hst | now apply ampCss_answered]. }
  apply Hinv. now left.
Qed.




(** In production with the artifact read at startup, every AMP page
    carries the bytes of the artifact as its stylesheet, whatever the
    fallback cell holds, and the state is left as it was. *)
Theorem artifact_is_served_as_read
    (w : World) (h : Host) (bytes : string) (r : Request) (st : State) :
  load w = Normal h ->
  NODE_ENV_production w = true ->
  res_amp_css w = Some bytes ->
  amp_request h r = true ->
  handle h r st = (amp_page h (JBuffer bytes) r, st).
Proof.
  intros Hload Hp Hfile A.
  destruct (load_inv w h Hload) as (_ & Heager & _).
  rewrite Hp, Hfile in Heager. simpl in Heager.
  rewrite (handle_amp h r st A), ampCss_eager by now rewrite Heager.
  now rewrite Heager.
Qed.

Lemma artifact_is_served_as_read_witness :
  handle (Sample.host true (Some "")) (Sample.session_request "keynote")
    {| fallbackProdAmpCss := JStr "body{}"; less_calls := 1 |}
  = (amp_page (Sample.host true (Some "")) (JBuffer "")
       (Sample.session_request "keynote"),
     {| fallbackProdAmpCss := JStr "body{}"; less_calls := 1 |}).
Proof.
  apply (artifact_is_served_as_read (Sample.world true (Some ""))
           (Sample.host true (Some "")) "" (Sample.session_request "keynote"));
    reflexivity.
Defined.

(** ** What a rendered context holds *)

Lemma or_empty_cases (o : option JsVal) :
  or_empty o = JStr "" \/ truthy (or_empty o) = true.
Proof.
  destruct o as [v|]; [|now left]. simpl.
  destruct (truthy v) eqn:Ht; [now right | now left].
Qed.

Lemma ampCss_defined (h : Host) (st st' : State) (css : JsVal) :
  ampCss h st = (Normal css, st') -> is_undefined css = false.
Proof.
  intros H.
  destruct (is_undefined (js_or (prodAmpCss h) (fallbackProdAmpCss st))) eqn:E.
  - destruct (js_or_undefined _ _ E) as [Hf Hk].
    rewrite (ampCss_render h st Hf Hk) in H.
    destruct (less_render h (less_calls st)); [|discriminate].
    now injection H as <- _.
  - rewrite (ampCss_ready h st E) in H. now injection H as <- _.
Qed.

(** Every context handed to the template engine carries the constants of
    the module and the mount path of its request.  It is either a section
    context, layout ['devsummit'] and none of the six AMP members, or an
    AMP context, layout ['amp'] and all six: the site prefix is scheme,
    host header (the text ['undefined'] when missing) and mount path; the
    payload is truthy; title, time label and description are the empty
    string or truthy; the stylesheet is not [undefined]. *)
Theorem rendered_context_shape
    (h : Host) (r : Request) (st st' : State)
    (hd : list (string * string)) (p : string) (sc : Scope.t) :
  handle h r st = (Normal (Rendered hd p sc), st') ->
  hd = [("Feature-Policy", policyHeader h)] /\
  Scope.year sc = 2018 /\ Scope.prod sc = isProd h /\
  Scope.base sc = mountUrl (ctx r) /\
  Scope.sourcePrefix sc = sourcePrefix h /\ Scope.days sc = days h /\
  ((Scope.layout sc = "devsummit" /\
    Scope.sitePrefix sc = None /\ Scope.title sc = None /\
    Scope.time_label sc = None /\ Scope.description sc = None /\
    Scope.payload sc = None /\ Scope.styles sc = None) \/
   (Scope.layout sc = "amp" /\
    Scope.sitePrefix sc
    = Some ((if isProd h then "https://" else "http://")
              +:+ string_of (req_headers_host (ctx r)) +:+ Scope.base sc) /\
    (exists t, Scope.title sc = Some t /\ (t = JStr "" \/ truthy t = true)) /\
    (exists t, Scope.time_label sc = Some t /\ (t = JStr "" \/ truthy t = true)) /\
    (exists t, Scope.description sc = Some t /\ (t = JStr "" \/ truthy t = true)) /\
    (exists data, Scope.payload sc = Some data /\ truthy data = true) /\
    (exists css, Scope.styles sc = Some css /\ is_undefined css = false))).
Proof.
  intros H.
  destruct (handle_rendered h r st st' hd p sc H)
    as [-> [(A & -> & -> & _) | (A & -> & css & Hcss & ->)]].
  - repeat (split; [reflexivity|]). left. repeat split.
  - repeat (split; [reflexivity|]). right.
    split; [reflexivity|]. split; [reflexivity|].
    split; [eexists; split; [reflexivity | apply or_empty_cases]|].
    split; [eexists; split; [reflexivity | apply or_empty_cases]|].
    split; [eexists; split; [reflexivity | apply or_empty_cases]|].
    split.
    + exists (session_of h r). split; [reflexivity|].
      destruct (amp_request_inv h r A) as (_ & _ & id & Hrest & Ht & _).
      unfold session_of. now rewrite Hrest.
    + exists css. split; [reflexivity|]. exact (ampCss_defined h st st' css Hcss).
Qed.

Lemma rendered_context_shape_witness :
  let sc := session_scope (Sample.host false None) (ctx Scenario.bare_request)
              Sample.keynote (JStr "body{}") in
  Scope.layout sc = "amp" /\ Scope.sitePrefix sc = Some "http://undefined".
Proof.
  cbv zeta.
  destruct (rendered_context_shape (Sample.host false None)
              Scenario.bare_request initial_state
              {| fallbackProdAmpCss := JUndefined; less_calls := 1 |}
              (feature_policy (Sample.host false None)) "_amp-session"
              (session_scope (Sample.host false None)
                 (ctx Scenario.bare_request) Sample.keynote (JStr "body{}"))
              eq_refl)
    as (_ & _ & _ & _ & _ & _ & [[Hl _] | (Hl & Hsite & _)]).
  - discriminate Hl.
  - split; [exact Hl | exact Hsite].
Defined.

(** ** Top-level files and static mounts *)

(** The two top-level middlewares answer exactly three paths, compared
    as they are (no prefix, suffix or case folding): [/sw.js] with the
    service worker of the source directory in use, and the schedule and
    the site-verification file under their own names.  Every other path
    goes on to the next middleware. *)
Theorem top_level_answers :
  forall (sourcePrefix ctx_path : string),
    (top_level sourcePrefix ctx_path = CallNext <->
     ctx_path <> "/sw.js" /\ ctx_path <> "/schedule.json" /\
     ctx_path <> "/googlec6dfdf23945d0d0c.html") /\
    (forall file,
        top_level sourcePrefix ctx_path = Send file <->
        (ctx_path = "/sw.js" /\ file = sourcePrefix +:+ ctx_path) \/
        ((ctx_path = "/schedule.json" \/
          ctx_path = "/googlec6dfdf23945d0d0c.html") /\
         ctx_path = "/" +:+ file)).
Proof.
  intros sp p. unfold top_level, sw_middleware, files_middleware.
  destruct (String.eqb_spec p "/sw.js") as [-> | H1].
  - split.
    + split; [discriminate | intros [H _]; congruence].
    + intros file. split.
      * intros H. injection H as <-. now left.
      * intros [[_ ->] | [[H | H] _]]; [reflexivity | discriminate..].
  - destruct (String.eqb_spec p "/schedule.json") as [-> | H2].
    + split.
      * split; [discriminate | intros (_ & H & _); congruence].
      * intros file. split.
        -- intros H. injection H as <-. right. split; [now left | reflexivity].
        -- intros [[H _] | [_ H]]; [discriminate|].
           change ("/" +:+ file) with (String "/" file) in H.
           now injection H as <-.
    + destruct (String.eqb_spec p "/googlec6dfdf23945d0d0c.html") as [-> | H3].
      * split.
        -- split; [discriminate | intros (_ & _ & H); congruence].
        -- intros file. split.
           ++ intros H. injection H as <-.
              right. split; [now right | reflexivity].
           ++ intros [[H _] | [_ H]]; [discriminate|].
              change ("/" +:+ file) with (String "/" file) in H.
              now injection H as <-.
      * split.
        -- split; [now intros _ | reflexivity].
        -- intros file. split; [discriminate|].
           intros [[H _] | [[H | H] _]]; contradiction.
Qed.

(** The source directory that a loaded module names in every context it
    renders, and from which it sends the service worker, is one that it
    mounts statically in the same mode, under its own name. *)
Theorem source_prefix_is_mounted
    (w : World) (h : Host) (r : Request) (st st' : State)
    (hd : list (string * string)) (p : string) (sc : Scope.t) :
  load w = Normal h ->
  handle h r st = (Normal (Rendered hd p sc), st') ->
  Scope.sourcePrefix sc = source_prefix (NODE_ENV_production w) /\
  In ("/" +:+ Scope.sourcePrefix sc, Scope.sourcePrefix sc)
     (static_mounts (NODE_ENV_production w)) /\
  top_level (sourcePrefix h) "/sw.js" = Send (Scope.sourcePrefix sc +:+ "/sw.js").
Proof.
  intros Hload H.
  assert (Hsc : Scope.sourcePrefix sc = sourcePrefix h).
  { destruct (handle_rendered h r st st' hd p sc H)
      as [_ [(_ & _ & -> & _) | (_ & _ & css & _ & ->)]]; reflexivity. }
  assert (Hsp : sourcePrefix h = source_prefix (NODE_ENV_production w)).
  { unfold load in Hload.
    destruct (sections_dir w); [|discriminate]. now injection Hload as <-. }
  rewrite Hsc, Hsp. split; [reflexivity|].
  destruct (NODE_ENV_production w); simpl; auto.
Qed.

Lemma source_prefix_is_mounted_witness :
  exists sc,
    Scope.sourcePrefix sc = source_prefix true /\
    In ("/" +:+ Scope.sourcePrefix sc, Scope.sourcePrefix sc)
       (static_mounts true) /\
    top_level (sourcePrefix (Sample.host true None)) "/sw.js"
    = Send (Scope.sourcePrefix sc +:+ "/sw.js").
Proof.
  eexists.
  exact (source_prefix_is_mounted (Sample.world true None)
           (Sample.host true None) (Scenario.section_request "index")
           initial_state initial_state _ _ _ eq_refl eq_refl).
Defined.
